(** * The v1 scrape controller

    A shallow embedding of [apps/api/src/controllers/v1/scrape.ts]
    ([scrapeController]).

    The controller is modelled as a function from a request to the trace of
    effects it performs (the pipeline call, the error log line, the HTTP
    response) and its completion (normal return, or the exception it lets
    escape).  The helpers it imports from other files ([./types],
    [../../main/runWebScraper], [uuid]) are parameters of the model. *)

From Stdlib Require Import ZArith.
From stdpp Require Import base option list strings gmap fin_maps sets.

Local Open Scope Z_scope.

(** ** JavaScript values *)

Module Js.

(** Heap locations of the objects the pipeline allocates. *)
Definition loc := nat.

(** The value of an object property: a primitive or a reference to another
    object.  Numbers are restricted to integers. *)
Inductive jsval :=
| JUndefined
| JNull
| JBool (b : bool)
| JNum (n : Z)
| JStr (s : string)
| JRef (l : loc).

(** ToBoolean: [undefined], [null], [false], [0] and the empty string are
    falsy, everything else (every object included) is truthy. *)
Definition truthy (v : jsval) : bool :=
  match v with
  | JUndefined | JNull => false
  | JBool b => b
  | JNum n => negb (n =? 0)
  | JStr s => negb (String.eqb s "")
  | JRef _ => true
  end.

(** A mutable object is its property map, the heap maps locations to
    objects. *)
Abbreviation obj := (gmap string jsval).
Abbreviation heap := (gmap loc (gmap string jsval)).

(** [o.k]: reading a property that is not there gives [undefined]. *)
Definition get (o : obj) (k : string) : jsval := default JUndefined (o !! k).

(** Request data is immutable JSON. *)
#[local] Set Warnings "-register-all".
Inductive json :=
| JsonNull
| JsonBool (b : bool)
| JsonNum (n : Z)
| JsonStr (s : string)
| JsonArr (items : list json)
| JsonObj (fields : list (string * json)).

(** ToBoolean of a JSON value: arrays and objects are truthy. *)
Definition json_truthy (j : json) : bool :=
  match j with
  | JsonNull => false
  | JsonBool b => b
  | JsonNum n => negb (n =? 0)
  | JsonStr s => negb (String.eqb s "")
  | JsonArr _ | JsonObj _ => true
  end.

(** [String.prototype.includes]: [needle] occurs in [hay] as a substring. *)
Fixpoint includes (needle hay : string) : bool :=
  String.prefix needle hay ||
  match hay with
  | EmptyString => false
  | String _ hay' => includes needle hay'
  end.

(** What a [throw] carries: an [Error] object, given by its [name] and
    [message], or a string. *)
Inductive Thrown :=
| ErrorObject (name message : string)
| ThrownString (s : string).

(** [new Error(message)] *)
Definition new_Error (message : string) : Thrown := ErrorObject "Error" message.

(** [Error.prototype.toString], and [String(s)] of a string: what a template
    literal prints for a caught value. *)
Definition to_string (e : Thrown) : string :=
  match e with
  | ErrorObject name message =>
      if String.eqb name "" then message
      else if String.eqb message "" then name
      else name +:+ ": " +:+ message
  | ThrownString s => s
  end.

(** [error && error?.message ? error.message : error], as a template literal
    prints it.  A string has no [message] property. *)
Definition message_or_self (e : Thrown) : string :=
  match e with
  | ErrorObject _ message =>
      if truthy (JStr message) then message else to_string e
  | ThrownString _ => to_string e
  end.

End Js.

Import Js.

(** ** The types of [./types] the controller touches *)

(** The parsed request body ([ScrapeRequest]): the fields the controller
    reads, and [formats], from which the page options are derived. *)
Record ScrapeRequest := {
  url : string;
  origin : option string;
  timeout : option Z;
  extract : option json;
  formats : list string;
}.

(** [PageOptions]: the three optional flags the controller tests. *)
Record PageOptions := {
  includeMarkdown : option bool;
  includeRawHtml : option bool;
  includeExtract : option bool;
}.

Record ExtractorOptions := {
  mode : string;
}.

(** Truthiness of an optional boolean property. *)
Definition flag (b : option bool) : bool := default false b.

(** The job literal handed to the pipeline (lines 37-55).  [updateProgress] is
    a function that does nothing and is left out. *)
Record JobData := {
  job_url : string;
  job_mode : string;
  crawlerOptions : list (string * json);
  team_id : string;
  job_pageOptions : option PageOptions;
  job_extractorOptions : option ExtractorOptions;
  job_origin : option string;
  is_scrape : bool;
}.

Record JobOpts := {
  priority : Z;
}.

Record Job := {
  job_id : string;
  job_data : JobData;
  job_opts : JobOpts;
}.

Record PipelineArgs := {
  job : Job;
  token : string;
}.

(** An element of the [docs] array: a reference to a document object, or
    [None] for a [null]/[undefined] entry. *)
Abbreviation docref := (option loc).

(** What awaiting [startWebScraperPipeline] gives: the promise resolves to
    [{ success, message, docs }], the documents living in the heap [h], or it
    rejects. *)
Inductive PipelineOutcome :=
| Resolved (h : heap) (success : bool) (message : string) (docs : list docref)
| Rejected (e : Thrown).

(** The request: the raw JSON body and the authenticated team. *)
Record Request := {
  body : gmap string json;
  auth_team_id : string;
}.

(** ** In-place removal of a document property (lines 71-87) *)

(** [if (doc && doc.k) { delete doc.k; }] for one element of [docs]. *)
Definition delete_if_truthy (k : string) (h : heap) (doc : docref) : heap :=
  match doc with
  | None => h
  | Some l =>
      match h !! l with
      | None => h
      | Some o => if truthy (get o k) then <[l := delete k o]> h else h
      end
  end.

(** [docs.forEach((doc) => { if (doc && doc.k) { delete doc.k; } })] *)
Definition forEach_delete (k : string) (docs : list docref) (h : heap) : heap :=
  foldl (delete_if_truthy k) h docs.

(** Lines 71-77. *)
Definition strip_rawHtml (pageOptions : option PageOptions)
    (docs : list docref) (h : heap) : heap :=
  match pageOptions with
  | None => forEach_delete "rawHtml" docs h
  | Some po =>
      if negb (flag (includeRawHtml po)) then forEach_delete "rawHtml" docs h
      else h
  end.

(** Lines 79-87. *)
Definition strip_markdown (pageOptions : option PageOptions)
    (docs : list docref) (h : heap) : heap :=
  match pageOptions with
  | None => h
  | Some po =>
      if flag (includeExtract po) then
        if negb (flag (includeMarkdown po)) then forEach_delete "markdown" docs h
        else h
      else h
  end.

(** The test of line 71 fails: [pageOptions] is there and its
    [includeRawHtml] is truthy. *)
Definition keeps_rawHtml (pageOptions : option PageOptions) : bool :=
  match pageOptions with
  | None => false
  | Some po => flag (includeRawHtml po)
  end.

(** The tests of lines 79 and 80 both pass: [includeExtract] is truthy and
    [includeMarkdown] is not. *)
Definition drops_markdown (pageOptions : option PageOptions) : bool :=
  match pageOptions with
  | None => false
  | Some po => flag (includeExtract po) && negb (flag (includeMarkdown po))
  end.

(** The heap when the response is built. *)
Definition scrape_heap (pageOptions : option PageOptions)
    (docs : list docref) (h : heap) : heap :=
  strip_markdown pageOptions docs (strip_rawHtml pageOptions docs h).

(** [docs[0]]: [undefined] when the array is empty. *)
Definition first_doc (docs : list docref) : docref := mjoin (docs !! 0%nat).

(** What the loop body does to one object. *)
Definition strip (k : string) (o : obj) : obj :=
  if truthy (get o k) then delete k o else o.

(** The two loops of the controller, seen from one object: [listed] says
    whether [docs] refers to it. *)
Definition scrape_doc (pageOptions : option PageOptions) (listed : bool)
    (o : obj) : obj :=
  let o1 := if negb (keeps_rawHtml pageOptions) && listed
            then strip "rawHtml" o else o in
  if drops_markdown pageOptions && listed then strip "markdown" o1 else o1.

(** ** Effects: a trace of events and an exception *)

Section Effects.

Context {Document : Type}.

(** The JSON body of a response ([ScrapeResponse]): either
    [{ success: true, data, scrape_id }] or [{ success: false, error }]. *)
Inductive ResponseBody :=
| ScrapeSuccess (data : Document) (scrape_id : option string)
| ScrapeError (error : string).

Definition body_success (b : ResponseBody) : bool :=
  match b with
  | ScrapeSuccess _ _ => true
  | ScrapeError _ => false
  end.

Definition body_data (b : ResponseBody) : option Document :=
  match b with
  | ScrapeSuccess d _ => Some d
  | ScrapeError _ => None
  end.

Definition body_scrape_id (b : ResponseBody) : option string :=
  match b with
  | ScrapeSuccess _ i => i
  | ScrapeError _ => None
  end.

(** What the controller does to the outside world, in order. *)
Inductive Event :=
| EPipeline (args : PipelineArgs)
| ELoggerError (line : string)
| ERespond (status : Z) (json_body : ResponseBody).

(** A computation: the events it performed and how it ended, with a value or
    with an exception in flight. *)
Definition Run (A : Type) : Type := list Event * (Thrown + A).

Definition ret {A} (a : A) : Run A := ([], inr a).

Definition throw {A} (e : Thrown) : Run A := ([], inl e).

Definition emit (ev : Event) : Run unit := ([ev], inr tt).

Definition bind {A B} (f : A → Run B) (m : Run A) : Run B :=
  match m with
  | (t, inl e) => (t, inl e)
  | (t, inr a) => let '(t', r) := f a in (t ++ t', r)
  end.

(** [try { m } catch (error) { handler error }] *)
Definition try_catch {A} (m : Run A) (handler : Thrown → Run A) : Run A :=
  match m with
  | (t, inl e) => let '(t', r) := handler e in (t ++ t', r)
  | (t, inr a) => (t, inr a)
  end.

(** A pure call that may throw. *)
Definition call {A} (r : Thrown + A) : Run A := ([], r).

Definition trace {A} (m : Run A) : list Event := m.1.

Definition completion {A} (m : Run A) : Thrown + A := m.2.

(** The responses sent, in order. *)
Definition responses (t : list Event) : list (Z * ResponseBody) :=
  omap (λ ev, match ev with ERespond s b => Some (s, b) | _ => None end) t.

(** The jobs submitted to the pipeline, in order. *)
Definition submitted (t : list Event) : list Job :=
  omap (λ ev, match ev with EPipeline a => Some (job a) | _ => None end) t.

(** The calls of the pipeline, in order, with their arguments. *)
Definition calls (t : list Event) : list PipelineArgs :=
  omap (λ ev, match ev with EPipeline a => Some a | _ => None end) t.

(** The lines given to [Logger.error], in order. *)
Definition logged (t : list Event) : list string :=
  omap (λ ev, match ev with ELoggerError l => Some l | _ => None end) t.

End Effects.

Arguments ResponseBody : clear implicits.
Arguments Event : clear implicits.
Arguments Run : clear implicits.

#[global] Instance Run_ret {Document} : MRet (Run Document) := @ret Document.
#[global] Instance Run_bind {Document} : MBind (Run Document) := @bind Document.

(** ** The controller *)

(** The functions and values [scrape.ts] imports.  Their code is in other
    files; they are taken as they are typed there, as functions that return.
    [scrapeRequestSchema.parse] throws on a body that does not validate, and
    the pipeline's promise may reject. *)
Record Imports (Document : Type) := {
  (** [scrapeRequestSchema.parse]: the parsed body, or the validation error
      it throws *)
  scrapeRequestSchema_parse : gmap string json → Thrown + ScrapeRequest;
  legacyScrapeOptions : ScrapeRequest → option PageOptions;
  legacyExtractorOptions : json → ExtractorOptions;
  (** the converter reads the document it is given in the current heap *)
  legacyDocumentConverter : heap → docref → Document;
  (** the identifier [uuidv4()] returns in this run *)
  uuidv4 : string;
  (** the result of awaiting the pipeline on the given arguments *)
  startWebScraperPipeline : PipelineArgs → PipelineOutcome;
}.

Arguments scrapeRequestSchema_parse {Document}.
Arguments legacyScrapeOptions {Document}.
Arguments legacyExtractorOptions {Document}.
Arguments legacyDocumentConverter {Document}.
Arguments uuidv4 {Document}.
Arguments startWebScraperPipeline {Document}.

Section Controller.

Context {Document : Type} (I : Imports Document).

(** [await startWebScraperPipeline({ job, token })] *)
Definition await_pipeline (args : PipelineArgs)
  : Run Document (heap * (bool * string * list docref)) :=
  emit (EPipeline args);;
  match startWebScraperPipeline I args with
  | Resolved h success message docs => ret (h, (success, message, docs))
  | Rejected e => throw e
  end.

(** The object literal of lines 37-57. *)
Definition pipeline_args (req : Request) (b : ScrapeRequest)
    (pageOptions : option PageOptions)
    (extractorOptions : option ExtractorOptions) (jobId : string)
  : PipelineArgs :=
  {| job :=
       {| job_id := jobId;
          job_data :=
            {| job_url := url b;
               job_mode := "single_urls";
               crawlerOptions := [];
               team_id := auth_team_id req;
               job_pageOptions := pageOptions;
               job_extractorOptions := extractorOptions;
               job_origin := origin b;
               is_scrape := true |};
          job_opts := {| priority := 100 |} |};
     token := jobId |}.

(** [origin?.includes("website") ? jobId : undefined] *)
Definition scrape_id_of (origin : option string) (jobId : string)
  : option string :=
  match origin with
  | Some o => if includes "website" o then Some jobId else None
  | None => None
  end.

(** The text of the 500 response (lines 115-121). *)
Definition error_text (error : Thrown)
    (extractorOptions : option ExtractorOptions) : string :=
  "(Internal server error) - " +:+ message_or_self error +:+ " " +:+
  match extractorOptions with
  | Some eo =>
      if negb (String.eqb (mode eo) "markdown")
      then " - Could be due to LLM parsing issues"
      else ""
  | None => ""
  end.

(** Lines 28-30: [req.body.extract ? legacyExtractorOptions(req.body.extract)
    : undefined]. *)
Definition extractorOptions_of (b : ScrapeRequest) : option ExtractorOptions :=
  match extract b with
  | Some e => if json_truthy e then Some (legacyExtractorOptions I e) else None
  | None => None
  end.

(** The second hole of the template of lines 115-121:
    [extractorOptions && extractorOptions.mode !== "markdown" ? ... : ""]. *)
Definition llm_hint (extractorOptions : option ExtractorOptions) : string :=
  match extractorOptions with
  | Some eo =>
      if negb (String.eqb (mode eo) "markdown")
      then " - Could be due to LLM parsing issues"
      else ""
  | None => ""
  end.

(** [scrapeController] with the local [earlyReturn] as a parameter.  The
    validation of line 22 stands before the [try]: what it throws escapes.
    [startTime], [endTime] and [timeTakenInSeconds] feed only the [logJob]
    call that is commented out, and are left out. *)
Definition scrapeController_with (earlyReturn : bool) (req : Request)
  : Run Document unit :=
  b ← call (scrapeRequestSchema_parse I (body req));
  let origin := origin b in
  let timeout := timeout b in
  let pageOptions := legacyScrapeOptions I b in
  let extractorOptions := extractorOptions_of b in
  let jobId := uuidv4 I in
  try_catch
    (r ← await_pipeline
           (pipeline_args req b pageOptions extractorOptions jobId);
     let '(h, (success, message, docs)) := r in
     if negb success then throw (new_Error message)
     else if earlyReturn then ret tt
     else
       let h := scrape_heap pageOptions docs h in
       emit (ERespond 200
               (ScrapeSuccess
                  (legacyDocumentConverter I h (first_doc docs))
                  (scrape_id_of origin jobId))))
    (λ error,
       emit (ELoggerError ("Error in scrapeController: " +:+ to_string error));;
       emit (ERespond 500 (ScrapeError (error_text error extractorOptions)))).

(** Line 23: [let earlyReturn = false], and nothing assigns it afterwards. *)
Definition scrapeController (req : Request) : Run Document unit :=
  scrapeController_with false req.

(** The arguments the controller calls the pipeline with, for a body that
    validated to [b]. *)
Definition request_args (req : Request) (b : ScrapeRequest) : PipelineArgs :=
  pipeline_args req b (legacyScrapeOptions I b) (extractorOptions_of b)
    (uuidv4 I).

(** The error a pipeline outcome puts in flight inside the [try]: the
    rejection, or [new Error(message)] when [success] is false (lines 59-61). *)
Definition pipeline_error (out : PipelineOutcome) : option Thrown :=
  match out with
  | Rejected e => Some e
  | Resolved _ false message _ => Some (new_Error message)
  | Resolved _ true _ _ => None
  end.

End Controller.

(** ** Request validation *)

(** Modelled from the spec: the schema [scrapeRequestSchema] of [./types],
    which is not part of the sources at hand.  The specification makes the
    request [{ url, ...ScrapeOptions }], lists the recognised options of
    [ScrapeOptions], and requires that the set is closed: a key outside it is
    rejected at the boundary, by a pure function. *)
Definition ScrapeOptions_keys : gset string :=
  list_to_set
    [ "formats"; "onlyMainContent"; "includeTags"; "excludeTags"; "waitFor";
      "timeout"; "headers"; "mobile"; "skipTlsVerification";
      "removeBase64Images"; "blockAds"; "proxy"; "extract" ].

Definition scrapeRequest_keys : gset string := {[ "url" ]} ∪ ScrapeOptions_keys.

(** Modelled from the spec: validation against a closed set of keys.  A body
    with a key outside [recognised] is refused; the validation of the
    recognised fields, which the specification does not detail, is [fields]. *)
Definition strict_parse {A} (recognised : gset string)
    (fields : gmap string json → Thrown + A) (b : gmap string json)
  : Thrown + A :=
  if decide (dom b ⊆ recognised) then fields b
  else inl (ErrorObject "ZodError" "Unrecognized key in body").

(** ** Stand-ins for the imported helpers

    Concrete helpers on which the controller can be run. *)

Module Double.

Definition json_string (j : json) : option string :=
  match j with JsonStr s => Some s | _ => None end.

Definition json_strings (j : json) : option (list string) :=
  match j with JsonArr items => mapM json_string items | _ => None end.

(** The fields the controller reads: [url] is required, [formats] defaults to
    markdown alone. *)
Definition fields (b : gmap string json) : Thrown + ScrapeRequest :=
  match b !! "url" ≫= json_string with
  | None => inl (ErrorObject "ZodError" "Required")
  | Some u =>
      inr {| url := u;
             origin := b !! "origin" ≫= json_string;
             timeout := b !! "timeout" ≫= λ j,
                          match j with JsonNum n => Some n | _ => None end;
             extract := b !! "extract";
             formats := default ["markdown"] (b !! "formats" ≫= json_strings) |}
  end.

(** The keys of the request: the specification's, and [origin], which the
    controller reads. *)
Definition keys : gset string := {[ "origin" ]} ∪ scrapeRequest_keys.

Definition parse : gmap string json → Thrown + ScrapeRequest :=
  strict_parse keys fields.

(** One page option per requested format. *)
Definition pageOptions_of_formats (b : ScrapeRequest) : option PageOptions :=
  Some {| includeMarkdown := Some (bool_decide ("markdown" ∈ formats b));
          includeRawHtml := Some (bool_decide ("rawHtml" ∈ formats b));
          includeExtract := Some (bool_decide ("extract" ∈ formats b)) |}.

(** A converter that hands the document on as it finds it. *)
Definition as_is (h : heap) (d : docref) : option obj := d ≫= (h !!.).

(** The helpers, around a given pipeline outcome. *)
Definition imports (jobId : string) (out : PipelineOutcome)
  : Imports (option obj) :=
  {| scrapeRequestSchema_parse := parse;
     legacyScrapeOptions := pageOptions_of_formats;
     legacyExtractorOptions := λ _, {| mode := "llm-extraction" |};
     legacyDocumentConverter := as_is;
     uuidv4 := jobId;
     startWebScraperPipeline := λ _, out |}.

Definition request (fields : list (string * json)) : Request :=
  {| body := list_to_map fields; auth_team_id := "team-1" |}.

End Double.

(** ** Example inputs *)

Module Example.

Definition doc_hi : obj :=
  {[ "markdown" := JStr "# Hi";
     "html" := JStr "<h1>Hi</h1>";
     "rawHtml" := JStr "<html><body><h1>Hi</h1></body></html>" ]}.

(** A page whose body is empty. *)
Definition doc_blank : obj :=
  {[ "markdown" := JStr ""; "html" := JStr ""; "rawHtml" := JStr "" ]}.

Definition one_doc (o : obj) : PipelineOutcome :=
  Resolved {[ 0%nat := o ]} true "" [Some 0%nat].

Definition target : string * json := ("url", JsonStr "https://example.com/").

Definition req_default : Request := Double.request [target].

(** What [req_default] validates to. *)
Definition parsed_default : ScrapeRequest :=
  {| url := "https://example.com/"; origin := None; timeout := None;
     extract := None; formats := ["markdown"] |}.

Definition req_extract : Request :=
  Double.request [target; ("formats", JsonArr [JsonStr "extract"])].

Definition req_rawHtml : Request :=
  Double.request
    [target; ("formats", JsonArr [JsonStr "markdown"; JsonStr "rawHtml"])].

Definition req_website : Request :=
  Double.request [target; ("origin", JsonStr "website-playground")].

(** What [req_website] validates to. *)
Definition parsed_website : ScrapeRequest :=
  {| url := "https://example.com/"; origin := Some "website-playground";
     timeout := None; extract := None; formats := ["markdown"] |}.

Definition req_unknown_key : Request :=
  Double.request [target; ("screenshotMode", JsonStr "full")].

End Example.

Ltac by_running := vm_compute; reflexivity.

(** The pipeline found one page, [doc_hi]. *)
Definition hi_imports : Imports (option obj) :=
  Double.imports "job-1" (Example.one_doc Example.doc_hi).

(** The pipeline found one page, empty. *)
Definition blank_imports : Imports (option obj) :=
  Double.imports "job-2" (Example.one_doc Example.doc_blank).

(** The pipeline reports failure. *)
Definition failing_imports : Imports (option obj) :=
  Double.imports "job-3" (Resolved ∅ false "All scraping methods failed" []).

(** The pipeline reports failure and gives no message. *)
Definition silent_failure_imports : Imports (option obj) :=
  Double.imports "job-4" (Resolved ∅ false "" []).

(** * Properties *)

(** ** Strings *)

Lemma append_cons (c : Ascii.ascii) (s t : string) :
  String c s +:+ t = String c (s +:+ t).
Proof. reflexivity. Qed.

Lemma prefix_cons (a c : Ascii.ascii) (n h : string) :
  String.prefix (String a n) (String c h) =
  if Ascii.ascii_dec a c then String.prefix n h else false.
Proof. reflexivity. Qed.

Lemma prefix_spec (n h : string) :
  String.prefix n h = true ↔ ∃ rest, h = n +:+ rest.
Proof.
  revert h. induction n as [|a n IH]; intros h.
  - split; [intros _; exists h; reflexivity | intros _; by destruct h].
  - destruct h as [|c h].
    + split; [intros E; discriminate E
             | intros [rest E]; by rewrite append_cons in E].
    + rewrite prefix_cons. destruct (Ascii.ascii_dec a c) as [->|Hne].
      * rewrite IH. split.
        -- intros [rest ->]. exists rest. reflexivity.
        -- intros [rest E]. rewrite append_cons in E.
           injection E as ->. by exists rest.
      * split; [done | intros [rest E]; rewrite append_cons in E; congruence].
Qed.

Lemma includes_cons (n : string) (c : Ascii.ascii) (h : string) :
  includes n (String c h) = String.prefix n (String c h) || includes n h.
Proof. reflexivity. Qed.

(** [includes] finds exactly the substrings. *)
Lemma includes_spec (n h : string) :
  includes n h = true ↔ ∃ before rest, h = before +:+ n +:+ rest.
Proof.
  induction h as [|c h IH].
  - change (includes n "") with (String.prefix n "" || false).
    rewrite orb_false_r, prefix_spec. split.
    + intros [rest E]. exists "", rest. exact E.
    + intros [[|? ?] [rest E]]; [by exists rest | by rewrite append_cons in E].
  - rewrite includes_cons, orb_true_iff, prefix_spec, IH. split.
    + intros [[rest E] | (before & rest & ->)].
      * exists "", rest. exact E.
      * exists (String c before), rest. reflexivity.
    + intros ([|c' before] & rest & E).
      * left. by exists rest.
      * right. rewrite append_cons in E. injection E as -> ->.
        by exists before, rest.
Qed.

(** ** Removing a property from the documents *)

Lemma get_delete (k : string) (o : obj) : get (delete k o) k = JUndefined.
Proof. unfold get. by rewrite lookup_delete_eq. Qed.

Lemma strip_falsy (k : string) (o : obj) : truthy (get (strip k o) k) = false.
Proof.
  unfold strip. destruct (truthy (get o k)) eqn:E; [|done].
  by rewrite get_delete.
Qed.

Lemma strip_idemp (k : string) (o : obj) : strip k (strip k o) = strip k o.
Proof. unfold strip at 1. by rewrite strip_falsy. Qed.

Lemma strip_lookup_ne (k k' : string) (o : obj) :
  k ≠ k' → strip k o !! k' = o !! k'.
Proof.
  intros Hne. unfold strip. destruct (truthy (get o k)); [|done].
  by rewrite lookup_delete_ne.
Qed.

Lemma strip_lookup (k : string) (o : obj) :
  strip k o !! k = if truthy (get o k) then None else o !! k.
Proof.
  unfold strip. destruct (truthy (get o k)); [|done].
  by rewrite lookup_delete_eq.
Qed.

Lemma delete_if_truthy_lookup (k : string) (h : heap) (d : docref) (l : loc) :
  delete_if_truthy k h d !! l =
  if decide (d = Some l) then strip k <$> h !! l else h !! l.
Proof.
  unfold delete_if_truthy. destruct d as [l'|]; [|by rewrite decide_False].
  destruct (decide (Some l' = Some l)) as [[= ->]|Hne].
  - unfold strip. destruct (h !! l) as [o|] eqn:E; [|by rewrite E].
    simpl. destruct (truthy (get o k)); [|by rewrite E].
    by rewrite lookup_insert_eq.
  - destruct (h !! l') as [o|] eqn:E; [|done].
    destruct (truthy (get o k)); [|done].
    rewrite lookup_insert_ne; [done | congruence].
Qed.

(** The loop acts on each object that [docs] refers to, once, however often
    [docs] refers to it, and leaves every other object alone. *)
Lemma forEach_delete_lookup (k : string) (docs : list docref) (h : heap) (l : loc) :
  forEach_delete k docs h !! l =
  if bool_decide (Some l ∈ docs) then strip k <$> h !! l else h !! l.
Proof.
  unfold forEach_delete. revert h.
  induction docs as [|d docs IH]; intros h; simpl; [done|].
  rewrite IH, delete_if_truthy_lookup.
  destruct (decide (d = Some l)) as [->|Hne].
  - rewrite (bool_decide_eq_true_2 (Some l ∈ Some l :: docs)) by by left.
    case_bool_decide; [|done].
    rewrite <- option_fmap_compose. apply option_fmap_ext. intros o; simpl.
    apply strip_idemp.
  - case_bool_decide as Hin.
    + rewrite bool_decide_eq_true_2; [done | by right].
    + rewrite bool_decide_eq_false_2; [done|].
      intros [?|?]%elem_of_cons; [by apply Hne | by apply Hin].
Qed.

Lemma strip_rawHtml_lookup po (docs : list docref) (h : heap) (l : loc) :
  strip_rawHtml po docs h !! l =
  if negb (keeps_rawHtml po) && bool_decide (Some l ∈ docs)
  then strip "rawHtml" <$> h !! l else h !! l.
Proof.
  unfold strip_rawHtml, keeps_rawHtml. destruct po as [po|]; simpl.
  - destruct (flag (includeRawHtml po)); simpl; [done|].
    apply forEach_delete_lookup.
  - apply forEach_delete_lookup.
Qed.

Lemma strip_markdown_lookup po (docs : list docref) (h : heap) (l : loc) :
  strip_markdown po docs h !! l =
  if drops_markdown po && bool_decide (Some l ∈ docs)
  then strip "markdown" <$> h !! l else h !! l.
Proof.
  unfold strip_markdown, drops_markdown. destruct po as [po|]; simpl; [|done].
  destruct (flag (includeExtract po)); simpl; [|done].
  destruct (flag (includeMarkdown po)); simpl; [done|].
  apply forEach_delete_lookup.
Qed.

Lemma scrape_heap_lookup po (docs : list docref) (h : heap) (l : loc) :
  scrape_heap po docs h !! l =
  scrape_doc po (bool_decide (Some l ∈ docs)) <$> h !! l.
Proof.
  unfold scrape_heap, scrape_doc.
  rewrite strip_markdown_lookup, strip_rawHtml_lookup.
  destruct (h !! l) as [o|]; simpl;
    by repeat match goal with |- context [if ?c then _ else _] => destruct c end.
Qed.

(** The controller never adds an object and never loses one. *)
Lemma scrape_heap_dom po (docs : list docref) (h : heap) (l : loc) :
  is_Some (scrape_heap po docs h !! l) ↔ is_Some (h !! l).
Proof. rewrite scrape_heap_lookup. apply fmap_is_Some. Qed.

Lemma scrape_doc_markdown_kept po listed (o : obj) :
  drops_markdown po = false →
  scrape_doc po listed o !! "markdown" = o !! "markdown".
Proof.
  intros E. unfold scrape_doc. rewrite E. simpl.
  destruct (negb (keeps_rawHtml po) && listed); [|done].
  by apply strip_lookup_ne.
Qed.

Lemma scrape_doc_markdown_dropped po (o : obj) :
  drops_markdown po = true →
  scrape_doc po true o !! "markdown" =
  if truthy (get o "markdown") then None else o !! "markdown".
Proof.
  intros E. unfold scrape_doc. rewrite E. simpl.
  rewrite strip_lookup. unfold get at 1.
  destruct (negb (keeps_rawHtml po) && true);
    [rewrite !strip_lookup_ne by done|]; done.
Qed.

Lemma scrape_doc_rawHtml_kept po listed (o : obj) :
  keeps_rawHtml po = true →
  scrape_doc po listed o !! "rawHtml" = o !! "rawHtml".
Proof.
  intros E. unfold scrape_doc. rewrite E. simpl.
  destruct (drops_markdown po && listed); [|done].
  by apply strip_lookup_ne.
Qed.

Lemma scrape_doc_rawHtml_dropped po (o : obj) :
  keeps_rawHtml po = false →
  scrape_doc po true o !! "rawHtml" =
  if truthy (get o "rawHtml") then None else o !! "rawHtml".
Proof.
  intros E. unfold scrape_doc. rewrite E. simpl.
  destruct (drops_markdown po && true);
    [rewrite strip_lookup_ne by done|]; apply strip_lookup.
Qed.

(** ** Validation *)

Lemma strict_parse_unknown_key {A} (recognised : gset string)
    (fields : gmap string json → Thrown + A) (b : gmap string json) (k : string) :
  k ∈ dom b → k ∉ recognised →
  strict_parse recognised fields b =
  inl (ErrorObject "ZodError" "Unrecognized key in body").
Proof.
  intros Hk Hnot. unfold strict_parse.
  rewrite decide_False; [done|]. intros Hsub. apply Hnot. by apply Hsub.
Qed.

Lemma strict_parse_recognised {A} (recognised : gset string)
    (fields : gmap string json → Thrown + A) (b : gmap string json) :
  dom b ⊆ recognised → strict_parse recognised fields b = fields b.
Proof. intros Hsub. unfold strict_parse. by rewrite decide_True. Qed.

(** ** The runs of the controller *)

Section Runs.

Context {Document : Type} (I : Imports Document).

(** A body that does not validate: the error escapes and nothing else
    happens. *)
Lemma run_invalid (earlyReturn : bool) (req : Request) (e : Thrown) :
  scrapeRequestSchema_parse I (body req) = inl e →
  scrapeController_with I earlyReturn req = ([], inl e).
Proof. intros E. unfold scrapeController_with. by rewrite E. Qed.

(** The pipeline rejects or reports failure: the [catch] logs and answers
    500. *)
Lemma run_failure (earlyReturn : bool) (req : Request) (b : ScrapeRequest)
    (e : Thrown) :
  scrapeRequestSchema_parse I (body req) = inr b →
  pipeline_error (startWebScraperPipeline I (request_args I req b)) = Some e →
  scrapeController_with I earlyReturn req =
  ([ EPipeline (request_args I req b);
     ELoggerError ("Error in scrapeController: " +:+ to_string e);
     ERespond 500 (ScrapeError (error_text e (extractorOptions_of I b))) ],
   inr tt).
Proof.
  intros Eb Ee. unfold scrapeController_with. rewrite Eb.
  unfold request_args in Ee. cbn -[to_string error_text].
  unfold await_pipeline. cbn -[to_string error_text].
  destruct (startWebScraperPipeline I _) as [h [] m docs|e']; simpl in Ee;
    by simplify_eq.
Qed.

(** The pipeline succeeds: the controller answers 200. *)
Lemma run_success (req : Request) (b : ScrapeRequest) (h : heap)
    (message : string) (docs : list docref) :
  scrapeRequestSchema_parse I (body req) = inr b →
  startWebScraperPipeline I (request_args I req b)
    = Resolved h true message docs →
  scrapeController_with I false req =
  ([ EPipeline (request_args I req b);
     ERespond 200
       (ScrapeSuccess
          (legacyDocumentConverter I
             (scrape_heap (legacyScrapeOptions I b) docs h) (first_doc docs))
          (scrape_id_of (origin b) (uuidv4 I))) ],
   inr tt).
Proof.
  intros Eb Ep. unfold scrapeController_with. rewrite Eb.
  unfold request_args in Ep. cbn -[scrape_heap scrape_id_of].
  unfold await_pipeline. cbn -[scrape_heap scrape_id_of].
  by rewrite Ep.
Qed.

(** Were [earlyReturn] true, a successful run would end without a response. *)
Lemma run_early_return (req : Request) (b : ScrapeRequest) (h : heap)
    (message : string) (docs : list docref) :
  scrapeRequestSchema_parse I (body req) = inr b →
  startWebScraperPipeline I (request_args I req b)
    = Resolved h true message docs →
  scrapeController_with I true req =
  ([ EPipeline (request_args I req b) ], inr tt).
Proof.
  intros Eb Ep. unfold scrapeController_with. rewrite Eb.
  unfold request_args in Ep. cbn. unfold await_pipeline. cbn.
  by rewrite Ep.
Qed.

(** Every run is one of the three above. *)
Lemma run_cases (req : Request) :
  (∃ e, scrapeRequestSchema_parse I (body req) = inl e) ∨
  (∃ b e, scrapeRequestSchema_parse I (body req) = inr b ∧
          pipeline_error (startWebScraperPipeline I (request_args I req b))
            = Some e) ∨
  (∃ b h message docs,
      scrapeRequestSchema_parse I (body req) = inr b ∧
      startWebScraperPipeline I (request_args I req b)
        = Resolved h true message docs).
Proof.
  destruct (scrapeRequestSchema_parse I (body req)) as [e|b] eqn:Eb;
    [left; by exists e|right].
  destruct (startWebScraperPipeline I (request_args I req b))
    as [h [] m docs|e] eqn:Ep.
  - right. by exists b, h, m, docs.
  - left. exists b, (new_Error m). by rewrite Ep.
  - left. exists b, e. by rewrite Ep.
Qed.

End Runs.

(** ** The claims about the scrape controller *)

Section Claims.

Context {Document : Type} (I : Imports Document).

(** C2.  When the body validates and the pipeline run succeeds, the controller
    sends exactly one response: status 200, [success: true], and as [data] the
    result of [legacyDocumentConverter] on [docs[0]], the first document of
    the pipeline, as it stands in the heap once the controller's two loops
    have run. *)
Theorem scrape_success_response (req : Request) (b : ScrapeRequest) (h : heap)
    (message : string) (docs : list docref) :
  scrapeRequestSchema_parse I (body req) = inr b →
  startWebScraperPipeline I (request_args I req b)
    = Resolved h true message docs →
  ∃ json_body,
    responses (trace (scrapeController I req)) = [(200, json_body)] ∧
    body_success json_body = true ∧
    body_data json_body =
      Some (legacyDocumentConverter I
              (scrape_heap (legacyScrapeOptions I b) docs h) (first_doc docs)) ∧
    completion (scrapeController I req) = inr tt.
Proof.
  intros Eb Ep. unfold scrapeController.
  rewrite (run_success I req b h message docs Eb Ep).
  eexists. repeat split.
Qed.

(** C3.  When the body validates and the pipeline run fails, by rejecting
    with [e] or by resolving with [success] false (then [e] is
    [new Error(message)]), the controller sends exactly one response: status
    500, a 5xx status, with body [{ success: false, error }], [error] being the
    string of lines 115-121; no response of the run has [success: true]. *)
Theorem scrape_failure_response (req : Request) (b : ScrapeRequest) (e : Thrown) :
  scrapeRequestSchema_parse I (body req) = inr b →
  pipeline_error (startWebScraperPipeline I (request_args I req b)) = Some e →
  ∃ status,
    responses (trace (scrapeController I req)) =
      [(status, ScrapeError (error_text e (extractorOptions_of I b)))] ∧
    500 ≤ status ≤ 599 ∧
    Forall (λ r, body_success r.2 = false)
      (responses (trace (scrapeController I req))).
Proof.
  intros Eb Ee. unfold scrapeController.
  rewrite (run_failure I false req b e Eb Ee).
  exists 500. split; [done|]. split; [lia|].
  by repeat constructor.
Qed.

(** C4.  Every job the controller submits to the pipeline is a single-URL
    scrape job with priority 100. *)
Theorem scrape_job_priority (req : Request) (j : Job) :
  j ∈ submitted (trace (scrapeController I req)) →
  priority (job_opts j) = 100 ∧ job_mode (job_data j) = "single_urls" ∧
  is_scrape (job_data j) = true.
Proof.
  unfold scrapeController.
  destruct (run_cases I req) as [[e Eb]|[(b & e & Eb & Ee)|(b & h & m & docs & Eb & Ep)]].
  - rewrite (run_invalid I false req e Eb). by intros ?%elem_of_nil.
  - rewrite (run_failure I false req b e Eb Ee). cbn.
    by intros ->%list_elem_of_singleton.
  - rewrite (run_success I req b h m docs Eb Ep). cbn.
    by intros ->%list_elem_of_singleton.
Qed.

(** C9.  In the response of a successful scrape, [scrape_id] is the id of the
    submitted job exactly when the request's [origin] is a string in which
    ["website"] occurs, and is undefined otherwise. *)
Theorem scrape_id_iff_website (req : Request) (b : ScrapeRequest) (h : heap)
    (message : string) (docs : list docref) :
  scrapeRequestSchema_parse I (body req) = inr b →
  startWebScraperPipeline I (request_args I req b)
    = Resolved h true message docs →
  ∃ j json_body,
    submitted (trace (scrapeController I req)) = [j] ∧
    responses (trace (scrapeController I req)) = [(200, json_body)] ∧
    (body_scrape_id json_body = Some (job_id j) ↔
       ∃ o before rest,
         origin b = Some o ∧ o = before +:+ "website" +:+ rest) ∧
    (body_scrape_id json_body = Some (job_id j) ∨
     body_scrape_id json_body = None).
Proof.
  intros Eb Ep. unfold scrapeController.
  rewrite (run_success I req b h message docs Eb Ep).
  eexists _, _. split; [reflexivity|]. split; [reflexivity|].
  cbn -[includes]. unfold scrape_id_of.
  destruct (origin b) as [o|].
  - destruct (includes "website" o) eqn:E.
    + split; [|by left]. split; [|done]. intros _.
      apply includes_spec in E as (before & rest & E). by exists o, before, rest.
    + split; [|by right]. split; [done|].
      intros (o' & before & rest & [= <-] & Ho).
      assert (includes "website" o = true) as E'
        by (apply includes_spec; by exists before, rest).
      congruence.
  - split; [|by right]. split; [done|]. by intros (? & ? & ? & ? & ?).
Qed.

(** C10.  [scrapeController] is the controller with [earlyReturn] false, so
    the early return is never taken: every successful pipeline run is
    answered, with exactly one response. *)
Theorem early_return_unreachable (req : Request) (b : ScrapeRequest) (h : heap)
    (message : string) (docs : list docref) :
  scrapeRequestSchema_parse I (body req) = inr b →
  startWebScraperPipeline I (request_args I req b)
    = Resolved h true message docs →
  scrapeController I req = scrapeController_with I false req ∧
  ∃ json_body,
    responses (trace (scrapeController I req)) = [(200, json_body)] ∧
    responses (trace (scrapeController_with I true req)) = [].
Proof.
  intros Eb Ep. split; [done|]. unfold scrapeController.
  rewrite (run_success I req b h message docs Eb Ep).
  rewrite (run_early_return I req b h message docs Eb Ep).
  by eexists.
Qed.

(** C1, amended.  For a successful scrape whose page options do not ask for
    [extract] without [markdown] (the tests of lines 79 and 80 do not both
    pass), every document is handed to [legacyDocumentConverter] with the
    [markdown] field the pipeline gave it: present whenever the pipeline
    produced it. *)
Theorem markdown_kept_unless_extract_only (req : Request) (b : ScrapeRequest)
    (h : heap) (message : string) (docs : list docref) :
  scrapeRequestSchema_parse I (body req) = inr b →
  startWebScraperPipeline I (request_args I req b)
    = Resolved h true message docs →
  drops_markdown (legacyScrapeOptions I b) = false →
  ∃ h' json_body,
    responses (trace (scrapeController I req)) = [(200, json_body)] ∧
    body_data json_body =
      Some (legacyDocumentConverter I h' (first_doc docs)) ∧
    ∀ l o, h !! l = Some o →
      ∃ o', h' !! l = Some o' ∧ o' !! "markdown" = o !! "markdown".
Proof.
  intros Eb Ep Hkeep. unfold scrapeController.
  rewrite (run_success I req b h message docs Eb Ep).
  eexists _, _. split; [reflexivity|]. split; [reflexivity|].
  intros l o Hl. rewrite scrape_heap_lookup, Hl. eexists. split; [reflexivity|].
  by apply scrape_doc_markdown_kept.
Qed.

(** The other side of lines 79-87: when [extract] is asked for without
    [markdown], a truthy [markdown] is deleted from every document of
    [docs]. *)
Lemma markdown_deleted_for_extract_only (req : Request) (b : ScrapeRequest)
    (h : heap) (message : string) (docs : list docref) :
  scrapeRequestSchema_parse I (body req) = inr b →
  startWebScraperPipeline I (request_args I req b)
    = Resolved h true message docs →
  drops_markdown (legacyScrapeOptions I b) = true →
  ∃ h' json_body,
    responses (trace (scrapeController I req)) = [(200, json_body)] ∧
    body_data json_body =
      Some (legacyDocumentConverter I h' (first_doc docs)) ∧
    ∀ l o, Some l ∈ docs → h !! l = Some o →
      ∃ o', h' !! l = Some o' ∧
            o' !! "markdown" =
              if truthy (get o "markdown") then None else o !! "markdown".
Proof.
  intros Eb Ep Hdrop. unfold scrapeController.
  rewrite (run_success I req b h message docs Eb Ep).
  eexists _, _. split; [reflexivity|]. split; [reflexivity|].
  intros l o Hin Hl. rewrite scrape_heap_lookup, Hl.
  rewrite bool_decide_eq_true_2 by done.
  eexists. split; [reflexivity|]. by apply scrape_doc_markdown_dropped.
Qed.

(** C8, amended.  In a successful scrape, when [includeRawHtml] is not set (or
    [pageOptions] is absent), every document of [docs] reaches
    [legacyDocumentConverter] without a truthy [rawHtml]: a truthy [rawHtml]
    is deleted, and a [rawHtml] field holding a falsy value, such as the empty
    string, stays as it is.  When [includeRawHtml] is set, every document
    keeps its [rawHtml] field. *)
Theorem rawHtml_removed_unless_requested (req : Request) (b : ScrapeRequest)
    (h : heap) (message : string) (docs : list docref) :
  scrapeRequestSchema_parse I (body req) = inr b →
  startWebScraperPipeline I (request_args I req b)
    = Resolved h true message docs →
  ∃ h' json_body,
    responses (trace (scrapeController I req)) = [(200, json_body)] ∧
    body_data json_body =
      Some (legacyDocumentConverter I h' (first_doc docs)) ∧
    (keeps_rawHtml (legacyScrapeOptions I b) = false →
     ∀ l o, Some l ∈ docs → h !! l = Some o →
       ∃ o', h' !! l = Some o' ∧
             truthy (get o' "rawHtml") = false ∧
             o' !! "rawHtml" =
               if truthy (get o "rawHtml") then None else o !! "rawHtml") ∧
    (keeps_rawHtml (legacyScrapeOptions I b) = true →
     ∀ l o, h !! l = Some o →
       ∃ o', h' !! l = Some o' ∧ o' !! "rawHtml" = o !! "rawHtml").
Proof.
  intros Eb Ep. unfold scrapeController.
  rewrite (run_success I req b h message docs Eb Ep).
  eexists _, _. split; [reflexivity|]. split; [reflexivity|]. split.
  - intros Hdrop l o Hin Hl. rewrite scrape_heap_lookup, Hl.
    rewrite bool_decide_eq_true_2 by done.
    eexists. split; [reflexivity|].
    pose proof (scrape_doc_rawHtml_dropped _ o Hdrop) as E.
    split; [|exact E]. unfold get at 1. rewrite E.
    destruct (truthy (get o "rawHtml")) eqn:Et; [done|]. exact Et.
  - intros Hkeep l o Hl. rewrite scrape_heap_lookup, Hl.
    eexists. split; [reflexivity|]. by apply scrape_doc_rawHtml_kept.
Qed.

(** C5.  The body is validated before anything else: a pipeline call in the
    trace means the body validated, and the job was built from the validated
    body.  With a schema that is strict over a closed set of keys, a body
    with a key outside the set stops the controller at the validation: the
    validation error escapes, and nothing is submitted, logged or answered. *)
Theorem validation_at_the_boundary (req : Request) :
  (∀ args, EPipeline args ∈ trace (scrapeController I req) →
     ∃ b, scrapeRequestSchema_parse I (body req) = inr b ∧
          args = request_args I req b) ∧
  (∀ recognised fields k,
     scrapeRequestSchema_parse I = strict_parse recognised fields →
     k ∈ dom (body req) → k ∉ recognised →
     ∃ e, scrapeController I req = ([], inl e)).
Proof.
  split.
  - intros args. unfold scrapeController.
    destruct (run_cases I req)
      as [[e Eb]|[(b & e & Eb & Ee)|(b & h & m & docs & Eb & Ep)]].
    + rewrite (run_invalid I false req e Eb). by intros ?%elem_of_nil.
    + rewrite (run_failure I false req b e Eb Ee). cbn.
      intros Hin. exists b. split; [done|].
      apply elem_of_cons in Hin as [[= ->]|Hin]; [done|].
      apply elem_of_cons in Hin as [?|Hin]; [done|].
      apply elem_of_cons in Hin as [?|Hin]; [done|]. by apply elem_of_nil in Hin.
    + rewrite (run_success I req b h m docs Eb Ep). cbn.
      intros Hin. exists b. split; [done|].
      apply elem_of_cons in Hin as [[= ->]|Hin]; [done|].
      apply elem_of_cons in Hin as [?|Hin]; [done|]. by apply elem_of_nil in Hin.
  - intros recognised fields k Hparse Hk Hnot.
    eexists. apply run_invalid. rewrite Hparse.
    by apply (strict_parse_unknown_key recognised fields (body req) k).
Qed.

End Claims.

(** ** The controller on the example inputs *)

(** C1 as the specification has it fails: the pipeline produced a document
    with markdown and no error, the request asked for the [extract] format
    alone, and the document of the 200 response has no [markdown] field. *)
Lemma extract_only_response_lacks_markdown :
  Example.doc_hi !! "markdown" = Some (JStr "# Hi") ∧
  Example.doc_hi !! "error" = None ∧
  ∃ d : obj,
    responses (trace (scrapeController hi_imports Example.req_extract))
      = [(200, ScrapeSuccess (Some d) None)] ∧
    d !! "markdown" = None.
Proof.
  split; [by_running|]. split; [by_running|].
  exists {[ "html" := JStr "<h1>Hi</h1>" ]}. split; by_running.
Qed.

(** The default request, which asks for markdown alone: the markdown
    stays. *)
Lemma markdown_kept_witness :
  ∃ h' json_body,
    responses (trace (scrapeController hi_imports Example.req_default))
      = [(200, json_body)] ∧
    body_data json_body = Some (Double.as_is h' (Some 0%nat)) ∧
    ∀ l o, ({[ 0%nat := Example.doc_hi ]} : heap) !! l = Some o →
      ∃ o', h' !! l = Some o' ∧ o' !! "markdown" = o !! "markdown".
Proof.
  apply (markdown_kept_unless_extract_only hi_imports Example.req_default
           Example.parsed_default {[ 0%nat := Example.doc_hi ]} "" [Some 0%nat]);
    by_running.
Defined.

(** The default request on a pipeline that found one page. *)
Lemma scrape_success_witness :
  ∃ json_body,
    responses (trace (scrapeController hi_imports Example.req_default))
      = [(200, json_body)] ∧
    body_success json_body = true ∧
    body_data json_body =
      Some (Some {[ "markdown" := JStr "# Hi"; "html" := JStr "<h1>Hi</h1>" ]}) ∧
    completion (scrapeController hi_imports Example.req_default) = inr tt.
Proof.
  destruct (scrape_success_response hi_imports Example.req_default
              Example.parsed_default {[ 0%nat := Example.doc_hi ]} ""
              [Some 0%nat])
    as (json_body & Hr & Hs & Hd & Hc); [by_running..|].
  exists json_body. split; [exact Hr|]. split; [exact Hs|]. split; [|exact Hc].
  rewrite Hd. by_running.
Defined.

(** The pipeline reports failure with a message. *)
Lemma scrape_failure_witness :
  ∃ status,
    responses (trace (scrapeController failing_imports Example.req_default))
      = [(status,
          ScrapeError
            "(Internal server error) - All scraping methods failed ")] ∧
    500 ≤ status ≤ 599 ∧
    Forall (λ r, body_success r.2 = false)
      (responses (trace (scrapeController failing_imports Example.req_default))).
Proof.
  apply (scrape_failure_response failing_imports Example.req_default
           Example.parsed_default (new_Error "All scraping methods failed"));
    by_running.
Defined.

(** The one job of a run. *)
Lemma scrape_job_priority_witness :
  ∃ j, submitted (trace (scrapeController hi_imports Example.req_default)) = [j] ∧
       priority (job_opts j) = 100 ∧
       job_mode (job_data j) = "single_urls" ∧
       is_scrape (job_data j) = true.
Proof.
  eexists. split; [by_running|].
  apply (scrape_job_priority hi_imports Example.req_default).
  vm_compute. by left.
Defined.

(** A body with a key that no schema of the specification knows. *)
Lemma validation_witness :
  ("screenshotMode" ∈ dom (body Example.req_unknown_key)) ∧
  ("screenshotMode" ∉ Double.keys) ∧
  ∃ e, scrapeController hi_imports Example.req_unknown_key = ([], inl e).
Proof.
  assert ("screenshotMode" ∈ dom (body Example.req_unknown_key)) as Hk
    by compute_done.
  assert ("screenshotMode" ∉ Double.keys) as Hn by compute_done.
  split; [exact Hk|]. split; [exact Hn|].
  exact (proj2 (validation_at_the_boundary hi_imports Example.req_unknown_key)
           _ Double.fields _ eq_refl Hk Hn).
Defined.

(** C8 as the specification has it fails: the request does not ask for
    [rawHtml], the page was empty, and the document of the 200 response still
    has its [rawHtml] field, holding the empty string. *)
Lemma blank_rawHtml_field_stays :
  keeps_rawHtml (legacyScrapeOptions blank_imports Example.parsed_default)
    = false ∧
  ∃ d : obj,
    responses (trace (scrapeController blank_imports Example.req_default))
      = [(200, ScrapeSuccess (Some d) None)] ∧
    d !! "rawHtml" = Some (JStr "").
Proof.
  split; [by_running|].
  exists Example.doc_blank. split; by_running.
Qed.

(** The default request: the raw HTML of the page is gone from the
    document. *)
Lemma rawHtml_witness :
  ∃ h' json_body,
    responses (trace (scrapeController hi_imports Example.req_default))
      = [(200, json_body)] ∧
    body_data json_body = Some (Double.as_is h' (Some 0%nat)) ∧
    ∀ o', h' !! 0%nat = Some o' → o' !! "rawHtml" = None.
Proof.
  destruct (rawHtml_removed_unless_requested hi_imports Example.req_default
              Example.parsed_default {[ 0%nat := Example.doc_hi ]} ""
              [Some 0%nat])
    as (h' & json_body & Hr & Hd & Hdrop & _); [by_running..|].
  exists h', json_body. split; [exact Hr|]. split; [exact Hd|].
  intros o' Ho'.
  destruct (Hdrop eq_refl 0%nat Example.doc_hi) as (o'' & Ho'' & _ & E);
    [by left | by_running |].
  pose proof (eq_trans (eq_sym Ho') Ho'') as [= ->]. rewrite E. by_running.
Defined.

(** With the [rawHtml] format requested the document is answered whole. *)
Example rawHtml_kept_on_request :
  responses (trace (scrapeController hi_imports Example.req_rawHtml))
    = [(200, ScrapeSuccess (Some Example.doc_hi) None)].
Proof. by_running. Qed.

(** A request from the website playground gets its job id back. *)
Lemma scrape_id_witness :
  ∃ j json_body,
    submitted (trace (scrapeController hi_imports Example.req_website)) = [j] ∧
    responses (trace (scrapeController hi_imports Example.req_website))
      = [(200, json_body)] ∧
    job_id j = "job-1" ∧
    body_scrape_id json_body = Some "job-1".
Proof.
  destruct (scrape_id_iff_website hi_imports Example.req_website
              Example.parsed_website {[ 0%nat := Example.doc_hi ]} ""
              [Some 0%nat])
    as (j & json_body & Hj & Hr & Hiff & _); [by_running..|].
  exists j, json_body. split; [exact Hj|]. split; [exact Hr|].
  assert (job_id j = "job-1") as Hid.
  { vm_compute in Hj. by injection Hj as <-. }
  split; [exact Hid|]. rewrite <- Hid. apply Hiff.
  by exists "website-playground", "", "-playground".
Defined.

(** The default request is answered. *)
Lemma early_return_witness :
  ∃ json_body,
    responses (trace (scrapeController hi_imports Example.req_default))
      = [(200, json_body)].
Proof.
  destruct (early_return_unreachable hi_imports Example.req_default
              Example.parsed_default {[ 0%nat := Example.doc_hi ]} ""
              [Some 0%nat])
    as (_ & json_body & Hr & _); [by_running..|].
  by exists json_body.
Defined.

(** ** Further properties of the controller *)

(** *** What the two loops do to the heap *)

Lemma strip_subseteq (k : string) (o : obj) : strip k o ⊆ o.
Proof.
  unfold strip. destruct (truthy (get o k)); [apply delete_subseteq | done].
Qed.

Lemma scrape_doc_subseteq po listed (o : obj) : scrape_doc po listed o ⊆ o.
Proof.
  unfold scrape_doc.
  destruct (negb (keeps_rawHtml po) && listed),
           (drops_markdown po && listed); try done.
  - etrans; apply strip_subseteq.
  - apply strip_subseteq.
  - apply strip_subseteq.
Qed.

Lemma scrape_doc_other_keys po listed (o : obj) (k : string) :
  k ≠ "rawHtml" → k ≠ "markdown" → scrape_doc po listed o !! k = o !! k.
Proof.
  intros Hr Hm. unfold scrape_doc.
  destruct (negb (keeps_rawHtml po) && listed),
           (drops_markdown po && listed);
    rewrite ?strip_lookup_ne by done; done.
Qed.

Lemma scrape_doc_unlisted po (o : obj) : scrape_doc po false o = o.
Proof. unfold scrape_doc. by rewrite !andb_false_r. Qed.

Lemma get_strip_ne (k k' : string) (o : obj) :
  k ≠ k' → get (strip k o) k' = get o k'.
Proof. intros Hne. unfold get. by rewrite strip_lookup_ne. Qed.

Lemma strip_comm (k k' : string) (o : obj) :
  k ≠ k' → strip k (strip k' o) = strip k' (strip k o).
Proof.
  intros Hne. unfold strip at 1 3.
  rewrite !get_strip_ne by done. unfold strip.
  destruct (truthy (get o k)), (truthy (get o k')); try done.
  apply delete_delete.
Qed.

Lemma scrape_doc_idemp po listed (o : obj) :
  scrape_doc po listed (scrape_doc po listed o) = scrape_doc po listed o.
Proof.
  unfold scrape_doc.
  destruct (negb (keeps_rawHtml po) && listed),
           (drops_markdown po && listed); try done.
  - rewrite (strip_comm "rawHtml" "markdown") by done.
    by rewrite !strip_idemp.
  - apply strip_idemp.
  - apply strip_idemp.
Qed.

Lemma error_text_split (e : Thrown) (eo : option ExtractorOptions) :
  error_text e eo =
  "(Internal server error) - " +:+ message_or_self e +:+ " " +:+ llm_hint eo.
Proof. reflexivity. Qed.

Section Further.

Context {Document : Type} (I : Imports Document).

(** A validated body leads to one of two runs. *)
Lemma outcome_cases (req : Request) (b : ScrapeRequest) :
  (∃ e, pipeline_error (startWebScraperPipeline I (request_args I req b))
          = Some e) ∨
  (∃ h message docs,
      startWebScraperPipeline I (request_args I req b)
        = Resolved h true message docs).
Proof.
  destruct (startWebScraperPipeline I (request_args I req b))
    as [h [] m docs|e]; simpl; eauto.
Qed.

(** X1.  Once the body has validated, whatever the pipeline does, the
    controller sends exactly one response and returns normally: either status
    200 with [success: true] or status 500 with [success: false].  No error of
    the pipeline escapes the controller, and none is answered twice. *)
Theorem one_response_per_validated_request (req : Request) (b : ScrapeRequest) :
  scrapeRequestSchema_parse I (body req) = inr b →
  ∃ status json_body,
    responses (trace (scrapeController I req)) = [(status, json_body)] ∧
    (status = 200 ∧ body_success json_body = true ∨
     status = 500 ∧ body_success json_body = false) ∧
    completion (scrapeController I req) = inr tt.
Proof.
  intros Eb. unfold scrapeController.
  destruct (outcome_cases req b) as [[e Ee]|(h & m & docs & Ep)].
  - rewrite (run_failure I false req b e Eb Ee).
    eexists _, _. split; [reflexivity|]. split; [by right|done].
  - rewrite (run_success I req b h m docs Eb Ep).
    eexists _, _. split; [reflexivity|]. split; [by left|done].
Qed.

(** X2.  The controller writes an error log line for every 500 response it
    sends and for nothing else: a run has as many [Logger.error] lines as 500
    responses, and every line starts with the controller's name. *)
Theorem error_logged_with_every_500 (req : Request) :
  length (logged (trace (scrapeController I req))) =
    length (filter (λ r, r.1 = 500)
              (responses (trace (scrapeController I req)))) ∧
  Forall (λ line, String.prefix "Error in scrapeController: " line = true)
    (logged (trace (scrapeController I req))).
Proof.
  unfold scrapeController.
  destruct (run_cases I req)
    as [[e Eb]|[(b & e & Eb & Ee)|(b & h & m & docs & Eb & Ep)]].
  - by rewrite (run_invalid I false req e Eb).
  - rewrite (run_failure I false req b e Eb Ee). split; [done|].
    constructor; [|done]. apply prefix_spec. by eexists.
  - by rewrite (run_success I req b h m docs Eb Ep).
Qed.

(** X3.  When the pipeline resolves with [success] false, the [error] of the
    500 response shows the pipeline's message; when that message is empty it
    shows the text ["Error"] in its place, the printed form of the [Error]
    thrown on line 60.  The message is followed by a space and, only for a
    request with [extract] options, by the hint on LLM parsing. *)
Theorem failure_message_text (req : Request) (b : ScrapeRequest) (h : heap)
    (message : string) (docs : list docref) :
  scrapeRequestSchema_parse I (body req) = inr b →
  startWebScraperPipeline I (request_args I req b)
    = Resolved h false message docs →
  responses (trace (scrapeController I req)) =
    [(500,
      ScrapeError
        ("(Internal server error) - " +:+
         (if String.eqb message "" then "Error" else message) +:+ " " +:+
         llm_hint (extractorOptions_of I b)))] ∧
  (extract b = None → llm_hint (extractorOptions_of I b) = "").
Proof.
  intros Eb Ep. split.
  - unfold scrapeController.
    rewrite (run_failure I false req b (new_Error message) Eb)
      by (by rewrite Ep).
    cbn -[error_text]. rewrite error_text_split.
    do 3 f_equal. unfold message_or_self, new_Error, truthy, to_string.
    by destruct (String.eqb message "").
  - intros He. unfold extractorOptions_of. by rewrite He.
Qed.

(** X4.  In a successful scrape the controller changes nothing in the heap
    but the [rawHtml] and [markdown] properties of the documents [docs]
    refers to: the heap handed to [legacyDocumentConverter] has the same
    objects, an object [docs] does not refer to is unchanged, and every object
    only lost properties, none of them other than those two. *)
Theorem documents_otherwise_untouched (req : Request) (b : ScrapeRequest)
    (h : heap) (message : string) (docs : list docref) :
  scrapeRequestSchema_parse I (body req) = inr b →
  startWebScraperPipeline I (request_args I req b)
    = Resolved h true message docs →
  ∃ h' json_body,
    responses (trace (scrapeController I req)) = [(200, json_body)] ∧
    body_data json_body =
      Some (legacyDocumentConverter I h' (first_doc docs)) ∧
    dom h' = dom h ∧
    (∀ l, Some l ∉ docs → h' !! l = h !! l) ∧
    (∀ l o, h !! l = Some o →
       ∃ o', h' !! l = Some o' ∧ o' ⊆ o ∧
             ∀ k, k ≠ "rawHtml" → k ≠ "markdown" → o' !! k = o !! k).
Proof.
  intros Eb Ep. unfold scrapeController.
  rewrite (run_success I req b h message docs Eb Ep).
  eexists _, _. split; [reflexivity|]. split; [reflexivity|]. split; [|split].
  - apply set_eq. intros l. rewrite !elem_of_dom. apply scrape_heap_dom.
  - intros l Hl. rewrite scrape_heap_lookup, bool_decide_eq_false_2 by done.
    destruct (h !! l); simpl; [|done]. by rewrite scrape_doc_unlisted.
  - intros l o Hl. rewrite scrape_heap_lookup, Hl. eexists.
    split; [reflexivity|]. split; [apply scrape_doc_subseteq|].
    intros k Hr Hm. by apply scrape_doc_other_keys.
Qed.

(** X8.  The controller calls the pipeline at most once per request, with no
    retry after a failure; the call's token is the id of its job, the job is
    made for the authenticated team and carries no crawler options. *)
Theorem pipeline_called_at_most_once (req : Request) :
  (length (calls (trace (scrapeController I req))) ≤ 1)%nat ∧
  Forall (λ args,
            token args = job_id (job args) ∧
            job_id (job args) = uuidv4 I ∧
            team_id (job_data (job args)) = auth_team_id req ∧
            crawlerOptions (job_data (job args)) = [])
    (calls (trace (scrapeController I req))).
Proof.
  unfold scrapeController.
  destruct (run_cases I req)
    as [[e Eb]|[(b & e & Eb & Ee)|(b & h & m & docs & Eb & Ep)]].
  - rewrite (run_invalid I false req e Eb). split; [simpl; lia|constructor].
  - rewrite (run_failure I false req b e Eb Ee). split; [simpl; lia|].
    by repeat constructor.
  - rewrite (run_success I req b h m docs Eb Ep). split; [simpl; lia|].
    by repeat constructor.
Qed.

(** X9.  Status and body of a response always agree, and the error text has
    a fixed beginning: every response the controller sends is either 200 with
    a [success: true] body or 500 with a [success: false] body whose [error]
    starts with ["(Internal server error) - "]. *)
Theorem response_status_matches_body (req : Request) :
  Forall (λ r,
            match r.2 with
            | ScrapeSuccess _ _ => r.1 = 200
            | ScrapeError text =>
                r.1 = 500 ∧
                String.prefix "(Internal server error) - " text = true
            end)
    (responses (trace (scrapeController I req))).
Proof.
  unfold scrapeController.
  destruct (run_cases I req)
    as [[e Eb]|[(b & e & Eb & Ee)|(b & h & m & docs & Eb & Ep)]].
  - rewrite (run_invalid I false req e Eb). constructor.
  - rewrite (run_failure I false req b e Eb Ee).
    constructor; [|constructor]. split; [done|].
    rewrite error_text_split. apply prefix_spec. by eexists.
  - rewrite (run_success I req b h m docs Eb Ep). by repeat constructor.
Qed.

End Further.

(** X5.  What the two loops leave behind depends only on which objects
    [docs] refers to: the order of the entries, entries that repeat an object
    and null entries make no difference. *)
Theorem docs_order_and_repeats_irrelevant (po : option PageOptions)
    (docs docs' : list docref) (h : heap) :
  (∀ l : loc, Some l ∈ docs ↔ Some l ∈ docs') →
  scrape_heap po docs h = scrape_heap po docs' h.
Proof.
  intros Hsame. apply map_eq. intros l. rewrite !scrape_heap_lookup.
  by rewrite (bool_decide_ext _ _ (Hsame l)).
Qed.

(** X6.  The clean-up of lines 71-87 can be repeated and reordered: running it
    again on its own result changes nothing, and the [markdown] loop and the
    [rawHtml] loop give the same heap in either order. *)
Theorem cleanup_idempotent_and_commutes (po : option PageOptions)
    (docs : list docref) (h : heap) :
  scrape_heap po docs (scrape_heap po docs h) = scrape_heap po docs h ∧
  strip_markdown po docs (strip_rawHtml po docs h) =
    strip_rawHtml po docs (strip_markdown po docs h).
Proof.
  split; apply map_eq; intros l.
  - rewrite !scrape_heap_lookup. destruct (h !! l) as [o|]; simpl; [|done].
    by rewrite scrape_doc_idemp.
  - rewrite strip_markdown_lookup, !strip_rawHtml_lookup, strip_markdown_lookup.
    destruct (h !! l) as [o|]; simpl;
      repeat match goal with
             | |- context [if ?c then _ else _] => destruct c
             end; simpl; try done.
    by rewrite (strip_comm "markdown" "rawHtml").
Qed.

(** *** On the example inputs *)

(** A validated request is answered once. *)
Lemma one_response_witness :
  ∃ status json_body,
    responses (trace (scrapeController failing_imports Example.req_default))
      = [(status, json_body)] ∧
    (status = 200 ∧ body_success json_body = true ∨
     status = 500 ∧ body_success json_body = false) ∧
    completion (scrapeController failing_imports Example.req_default) = inr tt.
Proof.
  apply (one_response_per_validated_request failing_imports
           Example.req_default Example.parsed_default).
  by_running.
Defined.

(** A failure without a message: the response says [Error]. *)
Lemma failure_message_witness :
  responses (trace (scrapeController silent_failure_imports Example.req_default))
    = [(500, ScrapeError "(Internal server error) - Error ")].
Proof.
  destruct (failure_message_text silent_failure_imports Example.req_default
              Example.parsed_default ∅ "" []) as [Hr _]; [by_running..|].
  rewrite Hr. by_running.
Defined.

(** The raw HTML goes, the title of the page stays. *)
Lemma documents_untouched_witness :
  ∃ h' json_body,
    responses (trace (scrapeController hi_imports Example.req_default))
      = [(200, json_body)] ∧
    body_data json_body = Some (Double.as_is h' (Some 0%nat)) ∧
    ∃ o', h' !! 0%nat = Some o' ∧ o' !! "html" = Some (JStr "<h1>Hi</h1>").
Proof.
  destruct (documents_otherwise_untouched hi_imports Example.req_default
              Example.parsed_default {[ 0%nat := Example.doc_hi ]} ""
              [Some 0%nat])
    as (h' & json_body & Hr & Hd & _ & _ & Hobj); [by_running..|].
  exists h', json_body. split; [exact Hr|]. split; [exact Hd|].
  destruct (Hobj 0%nat Example.doc_hi) as (o' & Ho' & _ & Hk); [by_running|].
  exists o'. split; [exact Ho'|]. by rewrite Hk.
Defined.

(** One page listed twice, after a null entry, is one page. *)
Lemma docs_repeats_witness :
  scrape_heap None [None; Some 0%nat; Some 0%nat] {[ 0%nat := Example.doc_hi ]}
    = scrape_heap None [Some 0%nat] {[ 0%nat := Example.doc_hi ]}.
Proof.
  apply docs_order_and_repeats_irrelevant. intros l.
  rewrite !elem_of_cons, !elem_of_nil. intuition discriminate.
Defined.
